(** * httpClient: an outbound HTTP call instrumented with OpenCensus metrics

    A shallow embedding of [http.go].  The Go packages the file imports
    ([net/http], [time], [strconv], OpenCensus [stats], [view], [tag]) are
    collaborators of the program: their data is modelled by small records,
    their behaviour by an environment [Env] the program is run against, and
    every call the program makes to them is logged in a trace, so that
    "what was submitted, and how often" can be stated and proved. *)

From Stdlib Require Import ZArith List String Ascii Bool Lia DecimalString.
From Stdlib Require Import DecimalPos DecimalZ.
Import ListNotations.
Open Scope string_scope.
Open Scope list_scope.
Open Scope Z_scope.

(** ** Data of the imported packages *)

(** Go's [error] interface: [None] is [nil], [Some msg] an error value. *)
Definition error := string.

Module time.
(** [time.Duration] is an [int64] count of nanoseconds. *)
Definition Duration := Z.

(** [func (d Duration) Milliseconds() int64 { return int64(d) / 1e6 }]:
    Go's integer division truncates toward zero, which is [Z.quot]. *)
Definition Milliseconds (d : Duration) : Z := Z.quot d 1000000.
End time.

Module strconv.
(** [strconv.Itoa]: the decimal representation of an [int]. *)
Definition Itoa (i : Z) : string := NilZero.string_of_int (Z.to_int i).
End strconv.

Module context.
(** A [context.Context] value; the program only passes it on. *)
Inductive Context := Background | Derived (id : nat).
End context.

Module tag.
Record Key := { Name : string }.
(** The five names the program uses are valid key names, for which
    [tag.MustNewKey] returns the key. *)
Definition MustNewKey (name : string) : Key := {| Name := name |}.
Inductive Mutator := Insert (k : Key) (v : string).
End tag.

Module stats.
Definition UnitDimensionless := "1".
Definition UnitMilliseconds := "ms".
Record Measure := { Name : string; Description : string; Unit : string }.
Definition Int64 (name description unit : string) : Measure :=
  {| Name := name; Description := description; Unit := unit |}.
(** [m.M(v)]: one observation of value [v] for measure [m]. *)
Record Measurement := { measure : Measure; value : Z }.
Definition M (m : Measure) (v : Z) : Measurement :=
  {| measure := m; value := v |}.
End stats.

Module view.
(** [view.Distribution(bounds...)] and [view.Count()].  The bounds the
    program passes are integer literals. *)
Inductive Aggregation := Distribution (bounds : list Z) | Count.
Record View := {
  Measure : stats.Measure;
  Name : string;
  TagKeys : list tag.Key;
  Description : string;
  Agg : Aggregation
}.
End view.

Module propagation.
Inductive HTTPFormat := mkHTTPFormat.
End propagation.

Module ochttp.
Record Transport := { Propagation : propagation.HTTPFormat }.
End ochttp.

Module http.
Record Request := { Method : string; URL : string; ctx : context.Context }.
Record Response := { StatusCode : Z }.
Record Client := { Timeout : time.Duration; Transport : ochttp.Transport }.
End http.

(** ** The world the program runs in *)

(** One entry per call into a collaborator that the claims speak about. *)
Inductive Event :=
| Registered (v : view.View)
| RoundTrip (c : http.Client) (req : option http.Request)
| Recorded (ctx : context.Context) (mutators : list tag.Mutator)
           (ms : list stats.Measurement).

(** [clock] is the monotonic clock reading in nanoseconds; [trace] lists the
    events so far, oldest first. *)
Record World := { clock : Z; trace : list Event }.

(** What [client.Do] hands back, and how long it took. *)
Record Exchange := {
  response : option http.Response;
  httpError : option error;
  took : time.Duration
}.

(** The behaviour of the collaborators.  Each answer may depend on all that
    happened before.  For a nil request pointer [net/http] may return or
    panic ([None]); the program is analysed for both. *)
Record Env := {
  view_Register : World -> view.View -> option error;
  client_Do : World -> http.Client -> http.Request -> Exchange;
  client_Do_nil : World -> http.Client -> option Exchange;
  stats_RecordWithTags :
    World -> context.Context -> list tag.Mutator -> list stats.Measurement ->
    option error
}.

(** ** Go computations: state passing, with panics *)

Inductive Outcome (A : Type) :=
| Returns (a : A) (w : World)
| Panics (w : World).
Arguments Returns {A} a w.
Arguments Panics {A} w.

Definition Go (A : Type) := World -> Outcome A.

Definition ret {A} (a : A) : Go A := fun w => Returns a w.

Definition bind {A B} (m : Go A) (k : A -> Go B) : Go B :=
  fun w => match m w with
           | Returns a w' => k a w'
           | Panics w' => Panics w'
           end.

Definition panic {A} : Go A := fun w => Panics w.

Declare Scope go_scope.
Delimit Scope go_scope with go.
Notation "x <- m ;; k" := (bind m (fun x => k))
  (at level 100, m at next level, right associativity) : go_scope.
Notation "' pat <- m ;; k" := (bind m (fun x => match x with pat => k end))
  (at level 100, pat pattern, m at next level, right associativity) : go_scope.
Open Scope go_scope.

Definition log (e : Event) (w : World) : World :=
  {| clock := clock w; trace := trace w ++ [e] |}.

Definition advance (d : time.Duration) (w : World) : World :=
  {| clock := clock w + d; trace := trace w |}.

(** ** Package-level variables *)

Definition outboundHTTPLatency : stats.Measure :=
  stats.Int64 "http_outbound_latency" "Latency of the external HTTP API"
              stats.UnitMilliseconds.

Definition outboundHTTPRequests : stats.Measure :=
  stats.Int64 "http_outbound_count" "Request count to the external HTTP API"
              stats.UnitDimensionless.

Definition MethodTag : tag.Key := tag.MustNewKey "http_method".
Definition StatusTag : tag.Key := tag.MustNewKey "http_status_code".
Definition StatusClassTag : tag.Key := tag.MustNewKey "http_status_class".
Definition APINameTag : tag.Key := tag.MustNewKey "api_name".
Definition VersionTag : tag.Key := tag.MustNewKey "version_name".

(** The if-chain of [recordHTTPMetrics] (lines 93-105) that derives the
    status class from the code, under a name of its own. *)
Definition statusClass (code : Z) : string :=
  if (100 <=? code) && (code <=? 199) then "1xx"
  else if (200 <=? code) && (code <=? 299) then "2xx"
  else if (300 <=? code) && (code <=? 399) then "3xx"
  else if (400 <=? code) && (code <=? 499) then "4xx"
  else if (500 <=? code) && (code <=? 599) then "5xx"
  else "UNKNOWN".

(** The first branch of [recordHTTPMetrics] (lines 87-91): the response's
    status code, or 500 when there is no response. *)
Definition statusCode (resp : option http.Response) : Z :=
  match resp with
  | Some r => http.StatusCode r
  | None => 500
  end.

Section Program.
Variable E : Env.

(** *** Calls into the collaborators *)

Definition time_Now : Go Z := fun w => Returns (clock w) w.

Definition time_Since (start : Z) : Go time.Duration :=
  fun w => Returns (clock w - start) w.

Definition view_register (v : view.View) : Go (option error) :=
  fun w => Returns (view_Register E w v) (log (Registered v) w).

Definition http_Client_Do (c : http.Client) (req : option http.Request)
  : Go (option http.Response * option error) :=
  fun w =>
    let done x :=
      Returns (response x, httpError x)
              (advance (took x) (log (RoundTrip c req) w)) in
    match req with
    | Some r => done (client_Do E w c r)
    | None =>
        match client_Do_nil E w c with
        | Some x => done x
        | None => Panics w
        end
    end.

(** [req.Context()] and [req.Method] dereference the pointer. *)
Definition request_Context (req : option http.Request) : Go context.Context :=
  match req with
  | Some r => ret (http.ctx r)
  | None => panic
  end.

Definition request_Method (req : option http.Request) : Go string :=
  match req with
  | Some r => ret (http.Method r)
  | None => panic
  end.

Definition RecordWithTags (ctx : context.Context)
           (mutators : list tag.Mutator) (ms : list stats.Measurement)
  : Go (option error) :=
  fun w => Returns (stats_RecordWithTags E w ctx mutators ms)
                   (log (Recorded ctx mutators ms) w).

(** *** The program *)

Definition registerLatencyMetric (m : stats.Measure) (tags : list tag.Key)
  : Go (option error) :=
  let v := {| view.Measure := m;
              view.Name := stats.Name m;
              view.TagKeys := tags;
              view.Description := stats.Description m;
              view.Agg :=
                view.Distribution [0; 100; 200; 400; 1000; 2000; 4000] |} in
  err <- view_register v ;;
  match err with
  | Some e => ret (Some e)
  | None => ret None
  end.

Definition registerCounterMetric (m : stats.Measure) (tags : list tag.Key)
  : Go (option error) :=
  let v := {| view.Measure := m;
              view.Name := stats.Name m;
              view.TagKeys := tags;
              view.Description := stats.Description m;
              view.Agg := view.Count |} in
  err <- view_register v ;;
  match err with
  | Some e => ret (Some e)
  | None => ret None
  end.

(** [func init()]: both results are dropped. *)
Definition init : Go unit :=
  _ <- registerLatencyMetric outboundHTTPLatency
         [MethodTag; APINameTag; StatusTag; StatusClassTag; VersionTag] ;;
  _ <- registerCounterMetric outboundHTTPRequests
         [MethodTag; APINameTag; StatusTag; StatusClassTag; VersionTag] ;;
  ret tt.

Definition recordHTTPMetrics (ctx : context.Context)
           (method apiName versionName : string)
           (latency : time.Duration) (resp : option http.Response)
  : Go (option error) :=
  let code := statusCode resp in
  let class := statusClass code in
  err <- RecordWithTags ctx
           [ tag.Insert MethodTag method;
             tag.Insert APINameTag apiName;
             tag.Insert StatusTag (strconv.Itoa code);
             tag.Insert StatusClassTag class;
             tag.Insert VersionTag versionName ]
           [ stats.M outboundHTTPLatency (time.Milliseconds latency);
             stats.M outboundHTTPRequests 1 ] ;;
  ret err.

(** The client literal that [Do] builds. *)
Definition newClient (timeout : time.Duration) : http.Client :=
  {| http.Timeout := timeout;
     http.Transport :=
       {| ochttp.Propagation := propagation.mkHTTPFormat |} |}.

Definition Do (req : option http.Request) (apiName versionName : string)
           (timeout : time.Duration)
  : Go (option http.Response * option error * option error) :=
  start <- time_Now ;;
  let client := newClient timeout in
  '(response, httpError) <- http_Client_Do client req ;;
  timeTaken <- time_Since start ;;
  ctx <- request_Context req ;;
  method <- request_Method req ;;
  metricError <- recordHTTPMetrics ctx method apiName versionName
                                   timeTaken response ;;
  ret (response, httpError, metricError).

End Program.


(** ** Reading the trace *)

(** A recording attempt: the arguments of one call of [stats.RecordWithTags]. *)
Definition Submission : Type :=
  context.Context * list tag.Mutator * list stats.Measurement.

Definition submissions (tr : list Event) : list Submission :=
  flat_map (fun e => match e with
                     | Recorded c mu ms => [(c, mu, ms)]
                     | _ => []
                     end) tr.

(** OpenCensus identifies a measure by its name. *)
Definition sameMeasure (m m' : stats.Measure) : bool :=
  String.eqb (stats.Name m) (stats.Name m').

(** The values submitted for measure [m], oldest first. *)
Definition observations (m : stats.Measure) (tr : list Event) : list Z :=
  flat_map (fun s : Submission =>
              map stats.value
                  (filter (fun o => sameMeasure (stats.measure o) m) (snd s)))
           (submissions tr).

(** The views handed to [view.Register], oldest first. *)
Definition registrations (tr : list Event) : list view.View :=
  flat_map (fun e => match e with
                     | Registered v => [v]
                     | _ => []
                     end) tr.

(** The world in which the recording of a call is attempted: the call has
    been made and the clock has moved on by the time it took. *)
Definition afterCall (E : Env) (timeout : time.Duration) (r : http.Request)
           (w : World) : World :=
  advance (took (client_Do E w (newClient timeout) r))
          (log (RoundTrip (newClient timeout) (Some r)) w).

(** An environment that differs only in how the registry answers a
    recording. *)
Definition withRecorder (E : Env)
           (rec : World -> context.Context -> list tag.Mutator ->
                  list stats.Measurement -> option error) : Env :=
  {| view_Register := view_Register E;
     client_Do := client_Do E;
     client_Do_nil := client_Do_nil E;
     stats_RecordWithTags := rec |}.

(** The two views [init] builds, spelled out. *)
Definition latencyView : view.View :=
  {| view.Measure := outboundHTTPLatency;
     view.Name := "http_outbound_latency";
     view.TagKeys :=
       [MethodTag; APINameTag; StatusTag; StatusClassTag; VersionTag];
     view.Description := "Latency of the external HTTP API";
     view.Agg := view.Distribution [0; 100; 200; 400; 1000; 2000; 4000] |}.

Definition counterView : view.View :=
  {| view.Measure := outboundHTTPRequests;
     view.Name := "http_outbound_count";
     view.TagKeys :=
       [MethodTag; APINameTag; StatusTag; StatusClassTag; VersionTag];
     view.Description := "Request count to the external HTTP API";
     view.Agg := view.Count |}.

(** ** Concrete worlds, used to run the program *)

Definition freshWorld : World := {| clock := 0; trace := [] |}.

Definition getSearch : http.Request :=
  {| http.Method := "GET";
     http.URL := "https://api.example.org/search";
     http.ctx := context.Background |}.

(** A server that answers every request with [code] after [d] nanoseconds,
    a registry that accepts everything. *)
Definition answering (code : Z) (d : time.Duration) : Env :=
  {| view_Register := fun _ _ => None;
     client_Do := fun _ _ _ =>
       {| response := Some {| http.StatusCode := code |};
          httpError := None;
          took := d |};
     client_Do_nil := fun _ _ => None;
     stats_RecordWithTags := fun _ _ _ _ => None |}.

(** A host that cannot be reached: no response, an error after [d]. *)
Definition unreachable (d : time.Duration) : Env :=
  {| view_Register := fun _ _ => None;
     client_Do := fun _ _ _ =>
       {| response := None;
          httpError := Some "dial tcp: connection refused";
          took := d |};
     client_Do_nil := fun _ _ => None;
     stats_RecordWithTags := fun _ _ _ _ => None |}.

(** A registry that refuses every view, while recording reports no fault. *)
Definition refusingViews : Env :=
  {| view_Register := fun _ _ => Some "view: cannot register";
     client_Do := client_Do (answering 200 5000000);
     client_Do_nil := fun _ _ => None;
     stats_RecordWithTags := fun _ _ _ _ => None |}.

(** The world a run ends in. *)
Definition worldOf {A} (o : Outcome A) : World :=
  match o with
  | Returns _ w => w
  | Panics w => w
  end.

(** ** Further readings of the trace *)

(** The calls of [client.Do], oldest first: the client and the request. *)
Definition roundTrips (tr : list Event)
  : list (http.Client * option http.Request) :=
  flat_map (fun e => match e with
                     | RoundTrip c req => [(c, req)]
                     | _ => []
                     end) tr.

Definition mutatorKey (m : tag.Mutator) : tag.Key :=
  match m with tag.Insert k _ => k end.

Definition mutatorValue (m : tag.Mutator) : string :=
  match m with tag.Insert _ v => v end.

(** ** What the imported packages promise *)

(** The status codes on which [net/http] follows a redirect. *)
Definition isRedirect (code : Z) : bool :=
  existsb (Z.eqb code) [301; 302; 303; 307; 308].

(** [net/http], on [Client.Do]: "A non-2xx status code doesn't cause an
    error", and "a non-nil Response with a non-nil error only occurs when
    CheckRedirect fails", that is, on a redirect that is not followed. *)
Definition netHTTPContract (E : Env) : Prop :=
  forall w c r resp,
    response (client_Do E w c r) = Some resp ->
    httpError (client_Do E w c r) <> None ->
    isRedirect (http.StatusCode resp) = true.

(** OpenCensus [tag]: a key name is 1 to 255 printable ASCII characters, a
    value at most 255 of them. *)
Definition printable (a : ascii) : bool :=
  Nat.leb 32 (nat_of_ascii a) && Nat.leb (nat_of_ascii a) 126.

Definition checkKeyName (name : string) : bool :=
  Nat.leb 1 (String.length name) && Nat.leb (String.length name) 255 &&
  forallb printable (list_ascii_of_string name).

Definition checkValue (v : string) : bool :=
  Nat.leb (String.length v) 255 &&
  forallb printable (list_ascii_of_string v).

Definition validMutator (m : tag.Mutator) : bool :=
  checkKeyName (tag.Name (mutatorKey m)) && checkValue (mutatorValue m).

(** OpenCensus [stats], on [RecordWithTags]: the error it returns is the
    error of applying the mutators, which arises from an invalid key name or
    value only. *)
Definition openCensusContract (E : Env) : Prop :=
  forall w ctx mu ms,
    forallb validMutator mu = true ->
    stats_RecordWithTags E w ctx mu ms = None.

(** A server that answers every request with [code] after [d] nanoseconds,
    and a registry that checks the tags as OpenCensus does. *)
Definition validating (code : Z) (d : time.Duration) : Env :=
  {| view_Register := fun _ _ => None;
     client_Do := client_Do (answering code d);
     client_Do_nil := fun _ _ => None;
     stats_RecordWithTags := fun _ _ mu _ =>
       if forallb validMutator mu then None
       else Some "invalid value: only ASCII characters accepted" |}.

(** A redirect that the client refuses to follow: [client.Do] hands back
    the last response together with an error. *)
Definition redirectRefused : Env :=
  {| view_Register := fun _ _ => None;
     client_Do := fun _ _ _ =>
       {| response := Some {| http.StatusCode := 302 |};
          httpError := Some "stopped after 10 redirects";
          took := 8000000 |};
     client_Do_nil := fun _ _ => None;
     stats_RecordWithTags := fun _ _ _ _ => None |}.

(** ** Running [Do] *)

Lemma submissions_app (tr tr' : list Event) :
  submissions (tr ++ tr') = submissions tr ++ submissions tr'.
Proof. unfold submissions. apply flat_map_app. Qed.

Lemma observations_app (m : stats.Measure) (tr tr' : list Event) :
  observations m (tr ++ tr') = observations m tr ++ observations m tr'.
Proof. unfold observations. rewrite submissions_app. apply flat_map_app. Qed.

Lemma trace_afterCall E timeout r w :
  trace (afterCall E timeout r w) =
  trace w ++ [RoundTrip (newClient timeout) (Some r)].
Proof. reflexivity. Qed.

Lemma clock_afterCall E timeout r w :
  clock (afterCall E timeout r w) - clock w =
  took (client_Do E w (newClient timeout) r).
Proof. unfold afterCall, advance, log; simpl. lia. Qed.

(** One call of [Do] on a request that is there: what it returns and the
    world it leaves. *)
Lemma Do_run (E : Env) (r : http.Request) (apiName versionName : string)
      (timeout : time.Duration) (w : World) :
  let x := client_Do E w (newClient timeout) r in
  let w1 := afterCall E timeout r w in
  let mutators :=
    [ tag.Insert MethodTag (http.Method r);
      tag.Insert APINameTag apiName;
      tag.Insert StatusTag (strconv.Itoa (statusCode (response x)));
      tag.Insert StatusClassTag (statusClass (statusCode (response x)));
      tag.Insert VersionTag versionName ] in
  let ms :=
    [ stats.M outboundHTTPLatency (time.Milliseconds (took x));
      stats.M outboundHTTPRequests 1 ] in
  Do E (Some r) apiName versionName timeout w =
  Returns (response x, httpError x,
           stats_RecordWithTags E w1 (http.ctx r) mutators ms)
          (log (Recorded (http.ctx r) mutators ms) w1).
Proof.
  intros x w1 mutators ms.
  unfold Do, bind, time_Now, http_Client_Do, time_Since, request_Context,
    request_Method, recordHTTPMetrics, RecordWithTags, ret.
  fold x. cbn [response httpError].
  replace (clock (advance (took x) (log (RoundTrip (newClient timeout) (Some r)) w))
           - clock w) with (took x)
    by (unfold advance, log; simpl; lia).
  reflexivity.
Qed.

(** ** The status class *)

(** Below the first bound of a range, or above its second, the test of that
    range fails. *)
Lemma range_test_false (lo hi c : Z) :
  c < lo \/ hi < c -> (lo <=? c) && (c <=? hi) = false.
Proof.
  intros H. apply andb_false_iff.
  destruct H; [left; apply Z.leb_gt | right; apply Z.leb_gt]; assumption.
Qed.

Lemma range_test_true (lo hi c : Z) :
  lo <= c <= hi -> (lo <=? c) && (c <=? hi) = true.
Proof.
  intros [Hlo Hhi]. apply andb_true_iff. split; apply Z.leb_le; assumption.
Qed.

Ltac skip_range := rewrite range_test_false by lia.
Ltac take_range := rewrite range_test_true by lia; reflexivity.

(** C2: the status class of a code is "1xx" on [100,199], "2xx" on
    [200,299], "3xx" on [300,399], "4xx" on [400,499], "5xx" on [500,599],
    and "UNKNOWN" for every other integer. *)
Theorem statusClass_by_range (c : Z) :
  (100 <= c <= 199 -> statusClass c = "1xx") /\
  (200 <= c <= 299 -> statusClass c = "2xx") /\
  (300 <= c <= 399 -> statusClass c = "3xx") /\
  (400 <= c <= 499 -> statusClass c = "4xx") /\
  (500 <= c <= 599 -> statusClass c = "5xx") /\
  (c < 100 \/ 599 < c -> statusClass c = "UNKNOWN").
Proof.
  unfold statusClass. repeat apply conj; intros H.
  - take_range.
  - skip_range. take_range.
  - do 2 skip_range. take_range.
  - do 3 skip_range. take_range.
  - do 4 skip_range. take_range.
  - do 5 skip_range. reflexivity.
Qed.

Lemma statusClass_by_range_witness :
  statusClass 101 = "1xx" /\ statusClass 299 = "2xx" /\
  statusClass 300 = "3xx" /\ statusClass 404 = "4xx" /\
  statusClass 599 = "5xx" /\ statusClass 99 = "UNKNOWN" /\
  statusClass 600 = "UNKNOWN" /\ statusClass (-200) = "UNKNOWN".
Proof.
  repeat apply conj.
  - apply (proj1 (statusClass_by_range 101)). lia.
  - apply (proj1 (proj2 (statusClass_by_range 299))). lia.
  - apply (proj1 (proj2 (proj2 (statusClass_by_range 300)))). lia.
  - apply (proj1 (proj2 (proj2 (proj2 (statusClass_by_range 404))))). lia.
  - apply (proj1 (proj2 (proj2 (proj2 (proj2 (statusClass_by_range 599)))))).
    lia.
  - apply (proj2 (proj2 (proj2 (proj2 (proj2 (statusClass_by_range 99)))))).
    lia.
  - apply (proj2 (proj2 (proj2 (proj2 (proj2 (statusClass_by_range 600)))))).
    lia.
  - apply (proj2 (proj2 (proj2 (proj2 (proj2 (statusClass_by_range (-200))))))).
    lia.
Defined.

(** ** One recording attempt per call *)

(** C1: a call of [Do] makes exactly one recording attempt, whatever the
    transport returned (a response, an error, a cancellation); that attempt
    submits exactly one latency observation and exactly one count
    observation, of value 1. *)
Theorem Do_records_exactly_once (E : Env) (r : http.Request)
        (apiName versionName : string) (timeout : time.Duration) (w : World) :
  exists res w' c mu latency,
    Do E (Some r) apiName versionName timeout w = Returns res w' /\
    submissions (trace w') =
      submissions (trace w) ++
      [(c, mu, [stats.M outboundHTTPLatency latency;
                stats.M outboundHTTPRequests 1])] /\
    observations outboundHTTPLatency (trace w') =
      observations outboundHTTPLatency (trace w) ++ [latency] /\
    observations outboundHTTPRequests (trace w') =
      observations outboundHTTPRequests (trace w) ++ [1].
Proof.
  pose proof (Do_run E r apiName versionName timeout w) as Hrun.
  cbv zeta in Hrun.
  do 5 eexists. split; [exact Hrun|].
  unfold log; cbn [trace]. rewrite trace_afterCall, <- app_assoc.
  rewrite submissions_app, !observations_app.
  repeat split.
Qed.

(** ** A call without a response *)

(** C3: when the transport fails and hands back no response, the recording
    is still attempted, with status code tag "500" and status class tag
    "5xx", and the caller gets the transport's error. *)
Theorem transport_failure_is_recorded_as_500 (E : Env) (r : http.Request)
        (apiName versionName : string) (timeout : time.Duration) (w : World) :
  response (client_Do E w (newClient timeout) r) = None ->
  httpError (client_Do E w (newClient timeout) r) <> None ->
  exists callError metricError w' latency,
    Do E (Some r) apiName versionName timeout w =
      Returns (None, Some callError, metricError) w' /\
    submissions (trace w') =
      submissions (trace w) ++
      [(http.ctx r,
        [ tag.Insert MethodTag (http.Method r);
          tag.Insert APINameTag apiName;
          tag.Insert StatusTag "500";
          tag.Insert StatusClassTag "5xx";
          tag.Insert VersionTag versionName ],
        [ stats.M outboundHTTPLatency latency;
          stats.M outboundHTTPRequests 1 ])].
Proof.
  intros Hresp Herr.
  pose proof (Do_run E r apiName versionName timeout w) as Hrun.
  cbv zeta in Hrun. rewrite Hresp in Hrun.
  destruct (httpError (client_Do E w (newClient timeout) r)) as [e|] eqn:He;
    [clear Herr | now contradict Herr].
  exists e. do 3 eexists. split; [exact Hrun|].
  unfold log; cbn [trace]. rewrite trace_afterCall, <- app_assoc.
  rewrite submissions_app. reflexivity.
Qed.

Lemma transport_failure_is_recorded_as_500_witness :
  exists callError metricError w' latency,
    Do (unreachable 2000000000) (Some getSearch) "search" "v3" 2000000000
       freshWorld =
      Returns (None, Some callError, metricError) w' /\
    submissions (trace w') =
      submissions (trace freshWorld) ++
      [(context.Background,
        [ tag.Insert MethodTag "GET";
          tag.Insert APINameTag "search";
          tag.Insert StatusTag "500";
          tag.Insert StatusClassTag "5xx";
          tag.Insert VersionTag "v3" ],
        [ stats.M outboundHTTPLatency latency;
          stats.M outboundHTTPRequests 1 ])].
Proof.
  apply (transport_failure_is_recorded_as_500
           (unreachable 2000000000) getSearch "search" "v3" 2000000000
           freshWorld).
  - reflexivity.
  - discriminate.
Defined.

(** ** A nil request *)

(** C10: on a nil request pointer [Do] panics instead of returning its
    three results: should [client.Do] return at all, [req.Context()]
    dereferences the pointer before anything is recorded. *)
Theorem Do_nil_request_panics (E : Env) (apiName versionName : string)
        (timeout : time.Duration) (w : World) :
  (exists w', Do E None apiName versionName timeout w = Panics w') /\
  (forall res w', Do E None apiName versionName timeout w <> Returns res w').
Proof.
  unfold Do, bind, time_Now, http_Client_Do, time_Since, request_Context,
    panic.
  destruct (client_Do_nil E w (newClient timeout)) as [x|];
    (split; [eexists; reflexivity | discriminate]).
Qed.

(** ** The call outcome and the recording outcome *)

(** C4: [Do] returns the response and the error of the transport call as
    they are, whatever the registry answers to the recording: put any
    recorder [rec] in the environment, failing or not, and the first two
    results are the transport's, the third is the recorder's answer. *)
Theorem recording_never_alters_the_call (E : Env)
        (rec : World -> context.Context -> list tag.Mutator ->
               list stats.Measurement -> option error)
        (r : http.Request) (apiName versionName : string)
        (timeout : time.Duration) (w : World) :
  exists mu ms w',
    Do (withRecorder E rec) (Some r) apiName versionName timeout w =
      Returns (response (client_Do E w (newClient timeout) r),
               httpError (client_Do E w (newClient timeout) r),
               rec (afterCall E timeout r w) (http.ctx r) mu ms)
              w' /\
    submissions (trace w') = submissions (trace w) ++ [(http.ctx r, mu, ms)].
Proof.
  pose proof (Do_run (withRecorder E rec) r apiName versionName timeout w)
    as Hrun.
  cbv zeta in Hrun.
  do 3 eexists. split; [exact Hrun|].
  unfold log; cbn [trace]. rewrite trace_afterCall, <- app_assoc.
  rewrite submissions_app. reflexivity.
Qed.

(** C5: a GET to the API "search" at version "v3" that obtains a response
    with status 404: the submission carries http_method "GET", api_name
    "search", http_status_code "404", http_status_class "4xx", version_name
    "v3", and [Do] returns the response with the call error nil and the
    recording error nil.  The two nils are derived: 404 is no redirect, so
    [net/http] returns no error beside the response, and the five keys and
    values are valid tags, so [stats.RecordWithTags] returns none. *)
Theorem Do_GET_search_v3_404 (E : Env) (r : http.Request)
        (resp : http.Response) (timeout : time.Duration) (w : World) :
  netHTTPContract E ->
  openCensusContract E ->
  http.Method r = "GET" ->
  response (client_Do E w (newClient timeout) r) = Some resp ->
  http.StatusCode resp = 404 ->
  exists w' latency,
    Do E (Some r) "search" "v3" timeout w =
      Returns (Some resp, None, None) w' /\
    submissions (trace w') =
      submissions (trace w) ++
      [(http.ctx r,
        [ tag.Insert (tag.MustNewKey "http_method") "GET";
          tag.Insert (tag.MustNewKey "api_name") "search";
          tag.Insert (tag.MustNewKey "http_status_code") "404";
          tag.Insert (tag.MustNewKey "http_status_class") "4xx";
          tag.Insert (tag.MustNewKey "version_name") "v3" ],
        [ stats.M outboundHTTPLatency latency;
          stats.M outboundHTTPRequests 1 ])].
Proof.
  intros Hhttp Hoc Hmethod Hresp Hcode.
  assert (Herr : httpError (client_Do E w (newClient timeout) r) = None).
  { destruct (httpError (client_Do E w (newClient timeout) r)) as [e|] eqn:He;
      [|reflexivity].
    assert (Hred : isRedirect (http.StatusCode resp) = true).
    { apply (Hhttp w (newClient timeout) r resp Hresp).
      rewrite He. discriminate. }
    rewrite Hcode in Hred. discriminate Hred. }
  pose proof (Do_run E r "search" "v3" timeout w) as Hrun.
  cbv zeta in Hrun.
  rewrite Hresp, Herr, Hmethod in Hrun.
  unfold statusCode in Hrun. rewrite Hcode in Hrun.
  rewrite Hoc in Hrun by reflexivity.
  do 2 eexists. split; [exact Hrun|].
  unfold log; cbn [trace]. rewrite trace_afterCall, <- app_assoc.
  rewrite submissions_app. reflexivity.
Qed.

Lemma Do_GET_search_v3_404_witness :
  exists w' latency,
    Do (validating 404 37500000) (Some getSearch) "search" "v3" 2000000000
       freshWorld =
      Returns (Some {| http.StatusCode := 404 |}, None, None) w' /\
    submissions (trace w') =
      submissions (trace freshWorld) ++
      [(context.Background,
        [ tag.Insert (tag.MustNewKey "http_method") "GET";
          tag.Insert (tag.MustNewKey "api_name") "search";
          tag.Insert (tag.MustNewKey "http_status_code") "404";
          tag.Insert (tag.MustNewKey "http_status_class") "4xx";
          tag.Insert (tag.MustNewKey "version_name") "v3" ],
        [ stats.M outboundHTTPLatency latency;
          stats.M outboundHTTPRequests 1 ])].
Proof.
  apply (Do_GET_search_v3_404 (validating 404 37500000) getSearch
           {| http.StatusCode := 404 |} 2000000000 freshWorld).
  - intros w c r resp _ Herr. now contradict Herr.
  - intros w ctx mu ms Hvalid. simpl. now rewrite Hvalid.
  - reflexivity.
  - reflexivity.
  - reflexivity.
Defined.

(** ** Registration at start-up *)

(** Each helper builds its view, hands it to [view.Register] and returns
    the answer. *)
Lemma registerLatencyMetric_run (E : Env) (w : World) :
  registerLatencyMetric E outboundHTTPLatency
    [MethodTag; APINameTag; StatusTag; StatusClassTag; VersionTag] w =
  Returns (view_Register E w latencyView) (log (Registered latencyView) w).
Proof.
  unfold registerLatencyMetric, bind, view_register, ret.
  change (view_Register E w _) with (view_Register E w latencyView).
  destruct (view_Register E w latencyView); reflexivity.
Qed.

Lemma registerCounterMetric_run (E : Env) (w : World) :
  registerCounterMetric E outboundHTTPRequests
    [MethodTag; APINameTag; StatusTag; StatusClassTag; VersionTag] w =
  Returns (view_Register E w counterView) (log (Registered counterView) w).
Proof.
  unfold registerCounterMetric, bind, view_register, ret.
  change (view_Register E w _) with (view_Register E w counterView).
  destruct (view_Register E w counterView); reflexivity.
Qed.

Lemma init_run (E : Env) (w : World) :
  init E w =
  Returns tt (log (Registered counterView) (log (Registered latencyView) w)).
Proof.
  unfold init, bind.
  rewrite registerLatencyMetric_run, registerCounterMetric_run. reflexivity.
Qed.

Lemma registrations_after_init (w : World) :
  registrations
    (trace (log (Registered counterView) (log (Registered latencyView) w))) =
  registrations (trace w) ++ [latencyView; counterView].
Proof.
  unfold log; cbn [trace]. rewrite <- app_assoc.
  unfold registrations. rewrite flat_map_app. reflexivity.
Qed.

(** C8: [init] registers the latency view with a distribution over the
    bounds 0, 100, 200, 400, 1000, 2000, 4000 and the count view with a
    count aggregation; both are keyed by http_method, api_name,
    http_status_code, http_status_class, version_name, in this order. *)
Theorem init_registers_both_views (E : Env) (w : World) :
  exists w' lv cv,
    init E w = Returns tt w' /\
    registrations (trace w') = registrations (trace w) ++ [lv; cv] /\
    view.Measure lv = outboundHTTPLatency /\
    view.Agg lv = view.Distribution [0; 100; 200; 400; 1000; 2000; 4000] /\
    view.Measure cv = outboundHTTPRequests /\
    view.Agg cv = view.Count /\
    view.TagKeys lv = view.TagKeys cv /\
    map tag.Name (view.TagKeys lv) =
      [ "http_method"; "api_name"; "http_status_code"; "http_status_class";
        "version_name" ].
Proof.
  exists (log (Registered counterView) (log (Registered latencyView) w)),
         latencyView, counterView.
  split; [apply init_run|].
  split; [apply registrations_after_init|].
  repeat apply conj; reflexivity.
Qed.

(** C6, as the spec has it, fails: a registry that refuses the views does
    not stop [init]. *)
Lemma registration_failure_is_not_fatal :
  ~ (forall (E : Env) (w : World),
        view_Register E w latencyView <> None \/
        view_Register E (log (Registered latencyView) w) counterView <> None ->
        exists w', init E w = Panics w').
Proof.
  intros H.
  destruct (H refusingViews freshWorld) as [w' Hw'].
  - left. discriminate.
  - rewrite init_run in Hw'. discriminate Hw'.
Qed.

(** C6, amended: each helper hands the registry's answer back to [init],
    which drops it; [init] attempts both registrations and returns
    normally whatever the answers were, and calls of [Do] are served
    afterwards. *)
Theorem init_drops_registration_errors (E : Env) (w : World) :
  exists w1 w2,
    registerLatencyMetric E outboundHTTPLatency
      [MethodTag; APINameTag; StatusTag; StatusClassTag; VersionTag] w =
      Returns (view_Register E w latencyView) w1 /\
    registerCounterMetric E outboundHTTPRequests
      [MethodTag; APINameTag; StatusTag; StatusClassTag; VersionTag] w1 =
      Returns (view_Register E w1 counterView) w2 /\
    init E w = Returns tt w2 /\
    registrations (trace w2) =
      registrations (trace w) ++ [latencyView; counterView] /\
    forall r apiName versionName timeout,
    exists res w3, Do E (Some r) apiName versionName timeout w2 = Returns res w3.
Proof.
  exists (log (Registered latencyView) w),
         (log (Registered counterView) (log (Registered latencyView) w)).
  repeat apply conj.
  - apply registerLatencyMetric_run.
  - apply registerCounterMetric_run.
  - apply init_run.
  - apply registrations_after_init.
  - intros r apiName versionName timeout.
    do 2 eexists. apply Do_run.
Qed.

(** ** Recording without registered views *)

(** C7, as the spec has it, fails: nothing was registered, the registry
    answers the recording without an error, and [Do] returns a nil
    recording error. *)
Lemma unregistered_views_do_not_fail_the_recording :
  ~ (forall (E : Env) (r : http.Request) (apiName versionName : string)
            (timeout : time.Duration) (w : World),
        registrations (trace w) = [] ->
        exists resp callError e w',
          Do E (Some r) apiName versionName timeout w =
          Returns (resp, callError, Some e) w').
Proof.
  intros H.
  destruct (H (answering 200 5000000) getSearch "search" "v3" 2000000000
              freshWorld eq_refl)
    as (resp & callError & e & w' & Hdo).
  rewrite Do_run in Hdo. discriminate Hdo.
Qed.

(** C7, amended: registered views or not, the recording error [Do] returns
    is the answer of [stats.RecordWithTags] to the one submission of the
    call, so it is non-nil exactly when the registry reports an error; the
    response and the call error are the transport's and the call
    completes. *)
Theorem recordingError_is_the_registry_answer (E : Env) (r : http.Request)
        (apiName versionName : string) (timeout : time.Duration) (w : World) :
  exists metricError w' mu ms,
    Do E (Some r) apiName versionName timeout w =
      Returns (response (client_Do E w (newClient timeout) r),
               httpError (client_Do E w (newClient timeout) r),
               metricError) w' /\
    submissions (trace w') = submissions (trace w) ++ [(http.ctx r, mu, ms)] /\
    metricError =
      stats_RecordWithTags E (afterCall E timeout r w) (http.ctx r) mu ms /\
    (metricError <> None <->
     exists e,
       stats_RecordWithTags E (afterCall E timeout r w) (http.ctx r) mu ms
       = Some e).
Proof.
  pose proof (Do_run E r apiName versionName timeout w) as Hrun.
  cbv zeta in Hrun.
  do 4 eexists. split; [exact Hrun|].
  split.
  - unfold log; cbn [trace]. rewrite trace_afterCall, <- app_assoc.
    rewrite submissions_app. reflexivity.
  - split; [reflexivity|].
    destruct (stats_RecordWithTags E _ _ _ _) as [e|].
    + split; [intros _; now exists e | discriminate].
    + split; [intros Hn; now contradict Hn | intros [e He]; discriminate He].
Qed.

(** ** The latency that is recorded *)

(** C9: the latency submitted for a call is the elapsed time of the call,
    in nanoseconds, divided by 1000000 and truncated toward zero; it is 0
    exactly for the durations under one millisecond. *)
Theorem latency_is_truncated_milliseconds (E : Env) (r : http.Request)
        (apiName versionName : string) (timeout : time.Duration) (w : World) :
  exists res w' latency,
    Do E (Some r) apiName versionName timeout w = Returns res w' /\
    observations outboundHTTPLatency (trace w') =
      observations outboundHTTPLatency (trace w) ++ [latency] /\
    latency = Z.quot (clock w' - clock w) 1000000 /\
    Z.abs latency * 1000000 <= Z.abs (clock w' - clock w)
      < (Z.abs latency + 1) * 1000000 /\
    0 <= latency * (clock w' - clock w) /\
    (latency = 0 <-> Z.abs (clock w' - clock w) < 1000000).
Proof.
  pose proof (Do_run E r apiName versionName timeout w) as Hrun.
  cbv zeta in Hrun.
  do 3 eexists. split; [exact Hrun|].
  split.
  - unfold log; cbn [trace]. rewrite trace_afterCall, <- app_assoc.
    rewrite observations_app. reflexivity.
  - unfold log; cbn [clock]. rewrite clock_afterCall.
    unfold time.Milliseconds.
    generalize (took (client_Do E w (newClient timeout) r)) as d. intros d.
    cbn [stats.value stats.M].
    Z.to_euclidean_division_equations. lia.
Qed.

(** ** Runs on concrete worlds *)

Example Itoa_samples :
  strconv.Itoa 404 = "404" /\ strconv.Itoa 0 = "0" /\
  strconv.Itoa (-7) = "-7" /\ strconv.Itoa 500 = "500".
Proof. repeat apply conj; reflexivity. Qed.

Example Milliseconds_samples :
  time.Milliseconds 999999 = 0 /\ time.Milliseconds 1000000 = 1 /\
  time.Milliseconds 37500000 = 37 /\ time.Milliseconds (-1500000) = -1.
Proof. repeat apply conj; reflexivity. Qed.

Example Do_sub_millisecond_run :
  observations outboundHTTPLatency
    (trace (worldOf (Do (answering 204 999999) (Some getSearch) "search" "v3"
                        2000000000 freshWorld))) = [0].
Proof. reflexivity. Qed.

Example Do_unreachable_run :
  Do (unreachable 2000000000) (Some getSearch) "search" "v3" 2000000000
     freshWorld =
  Returns (None, Some "dial tcp: connection refused", None)
    {| clock := 2000000000;
       trace :=
         [ RoundTrip (newClient 2000000000) (Some getSearch);
           Recorded context.Background
             [ tag.Insert MethodTag "GET";
               tag.Insert APINameTag "search";
               tag.Insert StatusTag "500";
               tag.Insert StatusClassTag "5xx";
               tag.Insert VersionTag "v3" ]
             [ stats.M outboundHTTPLatency 2000;
               stats.M outboundHTTPRequests 1 ] ] |}.
Proof. reflexivity. Qed.

Example init_then_Do_run :
  submissions
    (trace (worldOf (Do refusingViews (Some getSearch) "search" "v3" 1000000000
                        (worldOf (init refusingViews freshWorld))))) =
  [ (context.Background,
     [ tag.Insert MethodTag "GET";
       tag.Insert APINameTag "search";
       tag.Insert StatusTag "200";
       tag.Insert StatusClassTag "2xx";
       tag.Insert VersionTag "v3" ],
     [ stats.M outboundHTTPLatency 5; stats.M outboundHTTPRequests 1 ]) ].
Proof. reflexivity. Qed.

(** ** More on the status class *)

(** X1: on [100,599] the status class is the hundreds digit of the code
    followed by "xx". *)
Theorem statusClass_is_the_hundreds_digit (c : Z) :
  100 <= c <= 599 ->
  statusClass c = String.append (strconv.Itoa (c / 100)) "xx".
Proof.
  intros H.
  assert (Hq : (100 <= c <= 199 /\ c / 100 = 1) \/
               (200 <= c <= 299 /\ c / 100 = 2) \/
               (300 <= c <= 399 /\ c / 100 = 3) \/
               (400 <= c <= 499 /\ c / 100 = 4) \/
               (500 <= c <= 599 /\ c / 100 = 5))
    by (Z.to_euclidean_division_equations; lia).
  unfold statusClass.
  destruct Hq as [[Hr Hq] | [[Hr Hq] | [[Hr Hq] | [[Hr Hq] | [Hr Hq]]]]];
    rewrite Hq.
  - take_range.
  - skip_range. take_range.
  - do 2 skip_range. take_range.
  - do 3 skip_range. take_range.
  - do 4 skip_range. take_range.
Qed.

Lemma statusClass_is_the_hundreds_digit_witness :
  statusClass 451 = String.append (strconv.Itoa (451 / 100)) "xx".
Proof.
  apply (statusClass_is_the_hundreds_digit 451). lia.
Defined.

(** X2: the class is "UNKNOWN" for the codes outside [100,599] and for no
    other code. *)
Theorem statusClass_UNKNOWN_iff (c : Z) :
  statusClass c = "UNKNOWN" <-> (c < 100 \/ 599 < c).
Proof.
  split.
  - intros Hu.
    destruct (Z.lt_ge_cases c 100) as [|Hlo]; [now left|].
    destruct (Z.lt_ge_cases 599 c) as [|Hhi]; [now right|].
    exfalso. revert Hu. unfold statusClass.
    destruct (Z.le_gt_cases c 199); [rewrite range_test_true by lia; discriminate | skip_range].
    destruct (Z.le_gt_cases c 299); [rewrite range_test_true by lia; discriminate | skip_range].
    destruct (Z.le_gt_cases c 399); [rewrite range_test_true by lia; discriminate | skip_range].
    destruct (Z.le_gt_cases c 499); [rewrite range_test_true by lia; discriminate | skip_range].
    rewrite range_test_true by lia. discriminate.
  - intros H. unfold statusClass. do 5 skip_range. reflexivity.
Qed.

(** ** The status code tag *)

Lemma to_int_not_zero_digits (z : Z) :
  Z.to_int z <> Decimal.Pos Decimal.Nil /\
  Z.to_int z <> Decimal.Neg Decimal.Nil.
Proof.
  destruct z as [|p|p]; simpl; split; try discriminate;
    intros [= Hp]; now apply (DecimalPos.Unsigned.to_uint_nonnil p).
Qed.

Lemma Itoa_injective (a b : Z) : strconv.Itoa a = strconv.Itoa b -> a = b.
Proof.
  unfold strconv.Itoa. intros H.
  apply (f_equal NilZero.int_of_string) in H.
  destruct (to_int_not_zero_digits a) as [Ha1 Ha2].
  destruct (to_int_not_zero_digits b) as [Hb1 Hb2].
  rewrite !NilZero.isi in H by assumption.
  injection H as H.
  rewrite <- (DecimalZ.of_to a), <- (DecimalZ.of_to b). now rewrite H.
Qed.

(** X3: the status code tag determines the status code that was tagged
    (the response's, or the 500 that stands for no response): different
    codes never share a tag value. *)
Theorem status_code_tag_determines_the_code (r1 r2 : option http.Response) :
  strconv.Itoa (statusCode r1) = strconv.Itoa (statusCode r2) ->
  statusCode r1 = statusCode r2.
Proof. apply Itoa_injective. Qed.

Lemma status_code_tag_determines_the_code_witness :
  statusCode None = statusCode (Some {| http.StatusCode := 500 |}).
Proof.
  apply (status_code_tag_determines_the_code
           None (Some {| http.StatusCode := 500 |})).
  reflexivity.
Defined.

(** ** The events of one call *)

Lemma roundTrips_app (tr tr' : list Event) :
  roundTrips (tr ++ tr') = roundTrips tr ++ roundTrips tr'.
Proof. unfold roundTrips. apply flat_map_app. Qed.

Lemma registrations_app (tr tr' : list Event) :
  registrations (tr ++ tr') = registrations tr ++ registrations tr'.
Proof. unfold registrations. apply flat_map_app. Qed.

Lemma trace_after_recording E timeout r w c mu ms :
  trace (log (Recorded c mu ms) (afterCall E timeout r w)) =
  trace w ++ [RoundTrip (newClient timeout) (Some r); Recorded c mu ms].
Proof.
  unfold log; cbn [trace]. rewrite trace_afterCall, <- app_assoc. reflexivity.
Qed.

(** X4: when the transport hands back a response, with or without an error
    beside it, the submission is keyed http_method, api_name,
    http_status_code, http_status_class, version_name and carries the
    request's method, the API name and the version as given, the decimal
    status code of the response and the class of that same code. *)
Theorem response_status_is_tagged (E : Env) (r : http.Request)
        (resp : http.Response) (apiName versionName : string)
        (timeout : time.Duration) (w : World) :
  response (client_Do E w (newClient timeout) r) = Some resp ->
  exists res w' mu ms,
    Do E (Some r) apiName versionName timeout w = Returns res w' /\
    submissions (trace w') = submissions (trace w) ++ [(http.ctx r, mu, ms)] /\
    map mutatorKey mu =
      [MethodTag; APINameTag; StatusTag; StatusClassTag; VersionTag] /\
    map mutatorValue mu =
      [ http.Method r; apiName; strconv.Itoa (http.StatusCode resp);
        statusClass (http.StatusCode resp); versionName ].
Proof.
  intros Hresp.
  pose proof (Do_run E r apiName versionName timeout w) as Hrun.
  cbv zeta in Hrun. rewrite Hresp in Hrun.
  do 4 eexists. split; [exact Hrun|].
  rewrite trace_after_recording, submissions_app.
  repeat apply conj; reflexivity.
Qed.

Lemma response_status_is_tagged_witness :
  exists res w' mu ms,
    Do redirectRefused (Some getSearch) "search" "" 0 freshWorld =
      Returns res w' /\
    submissions (trace w') =
      submissions (trace freshWorld) ++ [(context.Background, mu, ms)] /\
    map mutatorKey mu =
      [MethodTag; APINameTag; StatusTag; StatusClassTag; VersionTag] /\
    map mutatorValue mu = [ "GET"; "search"; "302"; "3xx"; "" ].
Proof.
  apply (response_status_is_tagged redirectRefused getSearch
           {| http.StatusCode := 302 |} "search" "" 0 freshWorld).
  reflexivity.
Defined.

(** X5: a call without a response is tagged exactly like a call that was
    answered with status 500: same context, same mutators. *)
Theorem no_response_is_tagged_like_a_500_response
        (E1 E2 : Env) (r : http.Request) (resp : http.Response)
        (apiName versionName : string) (t1 t2 : time.Duration)
        (w1 w2 : World) :
  response (client_Do E1 w1 (newClient t1) r) = None ->
  response (client_Do E2 w2 (newClient t2) r) = Some resp ->
  http.StatusCode resp = 500 ->
  exists res1 w1' res2 w2' mu ms1 ms2,
    Do E1 (Some r) apiName versionName t1 w1 = Returns res1 w1' /\
    Do E2 (Some r) apiName versionName t2 w2 = Returns res2 w2' /\
    submissions (trace w1') =
      submissions (trace w1) ++ [(http.ctx r, mu, ms1)] /\
    submissions (trace w2') =
      submissions (trace w2) ++ [(http.ctx r, mu, ms2)].
Proof.
  intros Hnone Hsome Hcode.
  pose proof (Do_run E1 r apiName versionName t1 w1) as Hrun1.
  pose proof (Do_run E2 r apiName versionName t2 w2) as Hrun2.
  cbv zeta in Hrun1, Hrun2.
  rewrite Hnone in Hrun1. rewrite Hsome in Hrun2.
  unfold statusCode in Hrun1, Hrun2. rewrite Hcode in Hrun2.
  do 7 eexists.
  split; [exact Hrun1|]. split; [exact Hrun2|].
  rewrite !trace_after_recording, !submissions_app.
  split; reflexivity.
Qed.

Lemma no_response_is_tagged_like_a_500_response_witness :
  exists res1 w1' res2 w2' mu ms1 ms2,
    Do (unreachable 2000000000) (Some getSearch) "search" "v3" 2000000000
       freshWorld = Returns res1 w1' /\
    Do (answering 500 12000000) (Some getSearch) "search" "v3" 2000000000
       freshWorld = Returns res2 w2' /\
    submissions (trace w1') =
      submissions (trace freshWorld) ++ [(context.Background, mu, ms1)] /\
    submissions (trace w2') =
      submissions (trace freshWorld) ++ [(context.Background, mu, ms2)].
Proof.
  apply (no_response_is_tagged_like_a_500_response
           (unreachable 2000000000) (answering 500 12000000) getSearch
           {| http.StatusCode := 500 |} "search" "v3"
           2000000000 2000000000 freshWorld freshWorld);
    reflexivity.
Defined.

(** X6: a call of [Do] on a request adds two events and no other: one
    [client.Do], on the request as given and with the given timeout as the
    client's timeout (zero and negative values included), followed by one
    recording under the request's context.  It registers no view, and the
    clock moves on by the time the call took. *)
Theorem Do_calls_once_then_records (E : Env) (r : http.Request)
        (apiName versionName : string) (timeout : time.Duration) (w : World) :
  exists res w' cl mu ms,
    Do E (Some r) apiName versionName timeout w = Returns res w' /\
    trace w' = trace w ++ [RoundTrip cl (Some r); Recorded (http.ctx r) mu ms] /\
    http.Timeout cl = timeout /\
    roundTrips (trace w') = roundTrips (trace w) ++ [(cl, Some r)] /\
    registrations (trace w') = registrations (trace w) /\
    clock w' = clock w + took (client_Do E w cl r).
Proof.
  pose proof (Do_run E r apiName versionName timeout w) as Hrun.
  cbv zeta in Hrun.
  do 5 eexists. split; [exact Hrun|].
  rewrite trace_after_recording, roundTrips_app, registrations_app.
  repeat apply conj; try reflexivity.
  cbn. now rewrite app_nil_r.
Qed.

(** X7: on a nil request nothing is recorded and nothing is registered:
    the panic comes before [recordHTTPMetrics] is reached. *)
Theorem Do_nil_request_records_nothing (E : Env)
        (apiName versionName : string) (timeout : time.Duration) (w : World) :
  exists w',
    Do E None apiName versionName timeout w = Panics w' /\
    submissions (trace w') = submissions (trace w) /\
    registrations (trace w') = registrations (trace w).
Proof.
  unfold Do, bind, time_Now, http_Client_Do, time_Since, request_Context,
    panic.
  destruct (client_Do_nil E w (newClient timeout)) as [x|];
    eexists; (split; [reflexivity|]).
  - unfold advance, log; cbn [trace].
    rewrite submissions_app, registrations_app. cbn.
    now rewrite !app_nil_r.
  - split; reflexivity.
Qed.

(** ** Calls in sequence *)

(** X8: two calls one after the other leave two submissions, in the order
    of the calls, each under its own request's context and with its own
    method, API name and version; the count measure gets two observations
    of 1. *)
Theorem two_calls_two_submissions (E : Env) (r1 r2 : http.Request)
        (api1 api2 ver1 ver2 : string) (t1 t2 : time.Duration) (w : World) :
  exists res1 w1 res2 w2 mu1 ms1 mu2 ms2 code1 class1 code2 class2,
    Do E (Some r1) api1 ver1 t1 w = Returns res1 w1 /\
    Do E (Some r2) api2 ver2 t2 w1 = Returns res2 w2 /\
    submissions (trace w2) =
      submissions (trace w) ++
      [(http.ctx r1, mu1, ms1); (http.ctx r2, mu2, ms2)] /\
    map mutatorValue mu1 = [http.Method r1; api1; code1; class1; ver1] /\
    map mutatorValue mu2 = [http.Method r2; api2; code2; class2; ver2] /\
    map mutatorKey mu1 = map mutatorKey mu2 /\
    observations outboundHTTPRequests (trace w2) =
      observations outboundHTTPRequests (trace w) ++ [1; 1].
Proof.
  pose proof (Do_run E r1 api1 ver1 t1 w) as Hrun1. cbv zeta in Hrun1.
  do 2 eexists.
  match type of Hrun1 with _ = Returns _ ?w1 =>
    pose proof (Do_run E r2 api2 ver2 t2 w1) as Hrun2
  end.
  cbv zeta in Hrun2.
  do 10 eexists. split; [exact Hrun1|]. split; [exact Hrun2|].
  rewrite !trace_after_recording, <- !app_assoc.
  rewrite !submissions_app, !observations_app.
  repeat apply conj; reflexivity.
Qed.

(** ** More on registration *)

(** X9: [init] only registers: it makes no HTTP call, records nothing and
    takes no time on the clock. *)
Theorem init_only_registers (E : Env) (w : World) :
  exists w',
    init E w = Returns tt w' /\
    roundTrips (trace w') = roundTrips (trace w) /\
    submissions (trace w') = submissions (trace w) /\
    clock w' = clock w.
Proof.
  eexists. split; [apply init_run|].
  unfold log; cbn [trace clock].
  rewrite !roundTrips_app, !submissions_app. cbn.
  now rewrite !app_nil_r.
Qed.

(** X10: for any measure and any tag keys, each register helper calls
    [view.Register] once, on a view of that measure that is named and
    described after the measure and keyed by the keys as given, and hands
    the answer back unchanged, error or nil.  The two views differ in the
    aggregation only, so they carry the same name. *)
Theorem register_helpers_pass_the_answer_on (E : Env) (m : stats.Measure)
        (tags : list tag.Key) (w : World) :
  exists lv cv wl wc,
    registerLatencyMetric E m tags w = Returns (view_Register E w lv) wl /\
    registerCounterMetric E m tags w = Returns (view_Register E w cv) wc /\
    trace wl = trace w ++ [Registered lv] /\
    trace wc = trace w ++ [Registered cv] /\
    lv = {| view.Measure := m; view.Name := stats.Name m;
            view.TagKeys := tags; view.Description := stats.Description m;
            view.Agg := view.Distribution [0; 100; 200; 400; 1000; 2000; 4000] |} /\
    cv = {| view.Measure := m; view.Name := stats.Name m;
            view.TagKeys := tags; view.Description := stats.Description m;
            view.Agg := view.Count |} /\
    view.Name lv = view.Name cv.
Proof.
  set (lv := {| view.Measure := m; view.Name := stats.Name m;
                view.TagKeys := tags;
                view.Description := stats.Description m;
                view.Agg :=
                  view.Distribution [0; 100; 200; 400; 1000; 2000; 4000] |}).
  set (cv := {| view.Measure := m; view.Name := stats.Name m;
                view.TagKeys := tags;
                view.Description := stats.Description m;
                view.Agg := view.Count |}).
  exists lv, cv, (log (Registered lv) w), (log (Registered cv) w).
  split.
  { unfold registerLatencyMetric, bind, view_register, ret. fold lv.
    destruct (view_Register E w lv); reflexivity. }
  split.
  { unfold registerCounterMetric, bind, view_register, ret. fold cv.
    destruct (view_Register E w cv); reflexivity. }
  repeat apply conj; reflexivity.
Qed.

(** X11: what [Do] records fits what [init] registered: the mutators of a
    submission insert exactly the tag keys of the two views, in the same
    order and each once, and its two measurements are of the measures of
    the two views. *)
Theorem recording_matches_registration (E : Env) (r : http.Request)
        (apiName versionName : string) (timeout : time.Duration)
        (w0 w : World) :
  exists wi lv cv res w' mu ms,
    init E w0 = Returns tt wi /\
    registrations (trace wi) = registrations (trace w0) ++ [lv; cv] /\
    Do E (Some r) apiName versionName timeout w = Returns res w' /\
    submissions (trace w') = submissions (trace w) ++ [(http.ctx r, mu, ms)] /\
    map mutatorKey mu = view.TagKeys lv /\
    map mutatorKey mu = view.TagKeys cv /\
    NoDup (map tag.Name (map mutatorKey mu)) /\
    map stats.measure ms = [view.Measure lv; view.Measure cv].
Proof.
  pose proof (Do_run E r apiName versionName timeout w) as Hrun.
  cbv zeta in Hrun.
  do 7 eexists.
  split; [apply init_run|].
  split; [apply registrations_after_init|].
  split; [exact Hrun|].
  rewrite trace_after_recording, submissions_app.
  repeat apply conj; try reflexivity.
  cbn. repeat constructor; cbn; intuition discriminate.
Qed.

(** The contracts at work: a refused redirect keeps the [net/http] contract,
    and a registry that keeps the OpenCensus contract does refuse a tag value
    with a control character in it. *)
Example redirectRefused_keeps_the_contract : netHTTPContract redirectRefused.
Proof.
  intros w c r resp Hresp _. simpl in Hresp.
  injection Hresp as <-. reflexivity.
Qed.

Example validating_keeps_the_contract (code : Z) (d : time.Duration) :
  openCensusContract (validating code d).
Proof. intros w ctx mu ms Hvalid. simpl. now rewrite Hvalid. Qed.

Example invalid_api_name_run :
  exists resp e w',
    Do (validating 404 37500000) (Some getSearch)
       (String (ascii_of_nat 9) "search") "v3" 2000000000 freshWorld =
    Returns (Some resp, None, Some e) w'.
Proof. do 3 eexists. vm_compute. reflexivity. Qed.
